(** * mozbuilddata.connection.builds: the [BuildConnection] data-access helper

    A shallow embedding of [src/mozbuilddata/connection/builds.py] and the
    properties of its two methods, [insert_build] and [get_build].

    Python dictionaries are finite maps from column names to values.  The
    dictionaries a caller passes in are objects of a heap, addressed by
    reference, so that copying ([dict(params)]) and item assignment
    ([d['id'] = ...]) are visible as such.  The connection base class the
    methods call into is an interface ([ConnectionBase]); its operations run
    in a state-and-exception monad over the connection's state. *)

From stdpp Require Import gmap strings list.

(** ** Exceptions and outcomes *)

(** The exceptions of the model: [TypeError] is Python's own, the others are
    the classes a database layer raises.  Each carries its message. *)
Inductive exn :=
  | TypeError (msg : string)
  | IntegrityError (msg : string)
  | ProgrammingError (msg : string)
  | OperationalError (msg : string).

(** A call either returns a value or raises; both leave a state behind. *)
Inductive outcome (S A : Type) :=
  | Returned (a : A) (s : S)
  | Raised (e : exn) (s : S).
Arguments Returned {S A} a s.
Arguments Raised {S A} e s.

Definition M (S A : Type) : Type := S → outcome S A.

Definition ret {S A} (a : A) : M S A := λ s, Returned a s.

Definition bind {S A B} (m : M S A) (k : A → M S B) : M S B :=
  λ s, match m s with
       | Returned a s' => k a s'
       | Raised e s' => Raised e s'
       end.

Notation "x <- m ;; k" := (bind m (λ x, k))
  (at level 100, m at next level, right associativity).

(** The state a call leaves behind, whichever way it ends. *)
Definition final {S A} (o : outcome S A) : S :=
  match o with Returned _ s => s | Raised _ s => s end.

(** What a call returned, if it did, and what it raised, if it did. *)
Definition returned {S A} (o : outcome S A) : option A :=
  match o with Returned a _ => Some a | Raised _ _ => None end.

Definition raised {S A} (o : outcome S A) : option exn :=
  match o with Returned _ _ => None | Raised e _ => Some e end.

(** A Python [dict] with text keys: a row, a parameter set, a bind set.
    Column values (identifiers, versions, parameters) are opaque; the store
    only ever compares them for equality. *)
Abbreviation dict value := (gmap string value).

(** References to the dictionaries the caller and the methods hold. *)
Abbreviation ref := nat.

(** The text of the one statement [get_build] sends. *)
Definition select_build : string := "SELECT * FROM builds WHERE id=:id".

(** ** The connection base class *)

(** What [BuildConnection] uses of [ConnectionBase] and of the connection
    [self.c]: the generic insert, the cursor factory, the cursor's [execute],
    the conversion of a cursor's rows to dictionaries, and the iteration
    protocol over that conversion ([next] answers [None] when the iteration
    is over). *)
Class ConnectionBase (value C : Type) := {
  cursor_t : Type;
  iter_t : Type;
  _insert_dict : string → dict value → M C unit;
  cursor : M C cursor_t;
  execute : cursor_t → string → dict value → M C unit;
  _cursor_to_dicts : cursor_t → M C iter_t;
  next : iter_t → M C (option (dict value));
}.

(** ** The interpreter state: Python's heap of dictionaries, and [self] *)
Record world (value C : Type) := World {
  heap : gmap ref (dict value);
  conn : C;
}.
Arguments World {value C} heap conn.
Arguments heap {value C} w.
Arguments conn {value C} w.

Section methods.
Context {value C : Type} `{!ConnectionBase value C}.

(** A call into the connection: it sees and changes [self], not the caller's
    dictionaries. *)
Definition call {A} (m : M C A) : M (world value C) A :=
  λ w, match m (conn w) with
       | Returned a c => Returned a (World (heap w) c)
       | Raised e c => Raised e (World (heap w) c)
       end.

(** [dict(params)]: a new dictionary with the items of [params]. *)
Definition py_dict (params : ref) : M (world value C) ref :=
  λ w, match heap w !! params with
       | Some p =>
           let d := fresh (dom (heap w)) in
           Returned d (World (<[d := p]> (heap w)) (conn w))
       | None => Raised (TypeError "object is not a mapping") w
       end.

(** [d[k] = v]. *)
Definition py_setitem (d : ref) (k : string) (v : value)
  : M (world value C) unit :=
  λ w, match heap w !! d with
       | Some m =>
           Returned () (World (<[d := <[k := v]> m]> (heap w)) (conn w))
       | None =>
           Raised (TypeError "object does not support item assignment") w
       end.

(** Handing the dictionary [d] to a method of the connection, which reads
    its items. *)
Definition py_items (d : ref) : M (world value C) (dict value) :=
  λ w, match heap w !! d with
       | Some m => Returned m w
       | None => Raised (TypeError "object is not a mapping") w
       end.

(** [BuildConnection.insert_build].  The method has no [return]: what the
    insert gives back is dropped. *)
Definition insert_build (build_id version : value) (params : ref)
  : M (world value C) unit :=
  d <- py_dict params ;;
  _ <- py_setitem d "id" build_id ;;
  _ <- py_setitem d "version_" version ;;
  row <- py_items d ;;
  _ <- call (_insert_dict "builds" row) ;;
  ret ().

(** [BuildConnection.get_build].  The [for] loop asks the iteration for its
    first item and returns it from the method; when there is none the loop
    ends and the method returns [None]. *)
Definition get_build (build_id : value)
  : M (world value C) (option (dict value)) :=
  c <- call cursor ;;
  _ <- call (execute c select_build {[ "id" := build_id ]}) ;;
  it <- call (_cursor_to_dicts c) ;;
  item <- call (next it) ;;
  match item with
  | Some row => ret (Some row)
  | None => ret None
  end.

End methods.

(** The row [insert_build] builds from its three arguments. *)
Definition build_row {value} (build_id version : value) (p : dict value)
  : dict value :=
  <["version_" := version]> (<["id" := build_id]> p).

(** ** A reference store *)

Section store.
Context {value : Type} `{!EqDecision value}.

(** Modelled from the spec: the store behind [ConnectionBase], whose code is
    not part of this module.  It holds named tables of rows, each row a
    mapping from column name to value; a row is added at the end of its
    table and is never changed or removed afterwards.  The [builds] table
    keeps its [id] column unique.  Beside the tables the store keeps, for
    each cursor that was opened, the result rows not yet fetched. *)
Record refstore := RefStore {
  tables : gmap string (list (dict value));
  cursors : gmap nat (list (dict value));
}.

(** Modelled from the spec: the rows of a table of the store (a table never
    written to has none). *)
Definition rows_of (table : string) (s : refstore) : list (dict value) :=
  tables s !!! table.

(** Modelled from the spec: the condition of the lookup by identifier, that
    the row's [id] column is the value bound. *)
Definition has_id (b : value) (r : dict value) : Prop := r !! "id" = Some b.

#[global] Instance has_id_dec b r : Decision (has_id b r) :=
  decide (r !! "id" = Some b).

(** Modelled from the spec: the rows a lookup by [id] selects, in table
    order. *)
Definition matching (b : value) (rows : list (dict value))
  : list (dict value) :=
  filter (has_id b) rows.

(** Modelled from the spec: the uniqueness constraint on [id], whether a
    table already has a row with the [id] of [d]. *)
Definition duplicate_id (d : dict value) (rows : list (dict value)) : bool :=
  match d !! "id" with
  | Some b => bool_decide (Exists (has_id b) rows)
  | None => false
  end.

(** Modelled from the spec: the generic "insert mapping as row" operation.
    The mapping becomes a new row of the table; on [builds] a row whose [id]
    is already there is refused with a uniqueness violation. *)
Definition ref_insert_dict (table : string) (d : dict value)
  : M refstore unit :=
  λ s, let rows := rows_of table s in
       if bool_decide (table = "builds") && duplicate_id d rows
       then Raised (IntegrityError "builds.id is not unique") s
       else Returned () (RefStore (<[table := rows ++ [d]]> (tables s))
                                  (cursors s)).

(** Modelled from the spec: the cursor-producing primitive.  A new cursor
    has no result rows. *)
Definition ref_cursor : M refstore nat :=
  λ s, let c := fresh (dom (cursors s)) in
       Returned c (RefStore (tables s) (<[c := []]> (cursors s))).

(** Modelled from the spec: executing a parameterized statement on a cursor.
    The store understands the lookup of a build by [id]: the cursor's result
    becomes the rows of [builds] whose [id] is the value bound to [:id]. *)
Definition ref_execute (c : nat) (sql : string) (binds : dict value)
  : M refstore unit :=
  λ s, match cursors s !! c with
       | None => Raised (ProgrammingError "no such cursor") s
       | Some _ =>
           if bool_decide (sql = select_build) then
             match binds !! "id" with
             | Some b =>
                 Returned () (RefStore (tables s)
                                (<[c := matching b (rows_of "builds" s)]>
                                   (cursors s)))
             | None => Raised (ProgrammingError "parameter id is not bound") s
             end
           else Raised (ProgrammingError "statement not understood") s
       end.

(** Modelled from the spec: the "convert result rows to mappings" utility.
    It iterates over the cursor it is given; rows already are mappings. *)
Definition ref_cursor_to_dicts (c : nat) : M refstore nat :=
  λ s, Returned c s.

(** Modelled from the spec: one step of that iteration takes the next result
    row off the cursor. *)
Definition ref_next (it : nat) : M refstore (option (dict value)) :=
  λ s, match cursors s !! it with
       | Some (r :: rest) =>
           Returned (Some r) (RefStore (tables s) (<[it := rest]> (cursors s)))
       | Some [] => Returned None s
       | None => Raised (ProgrammingError "no such cursor") s
       end.

#[global] Instance refstore_connection : ConnectionBase value refstore := {|
  cursor_t := nat;
  iter_t := nat;
  _insert_dict := ref_insert_dict;
  cursor := ref_cursor;
  execute := ref_execute;
  _cursor_to_dicts := ref_cursor_to_dicts;
  next := ref_next;
|}.

End store.
Arguments refstore value : clear implicits.

(** ** A connection that drops *)

Section flaky.
Context {value C : Type} `{!ConnectionBase value C}.

(** A connection that serves a number of calls and then is lost: from then
    on every operation raises. *)
Record flaky := Flaky {
  calls_left : nat;
  inner : C;
}.

(** An operation behind the count of calls left. *)
Definition guarded {A} (m : M C A) : M flaky A :=
  λ f, match calls_left f with
       | 0 => Raised (OperationalError "connection lost") f
       | S n =>
           match m (inner f) with
           | Returned a c => Returned a (Flaky n c)
           | Raised e c => Raised e (Flaky n c)
           end
       end.

#[global] Instance flaky_connection : ConnectionBase value flaky := {|
  cursor_t := cursor_t;
  iter_t := iter_t;
  _insert_dict table d := guarded (_insert_dict table d);
  cursor := guarded cursor;
  execute c sql binds := guarded (execute c sql binds);
  _cursor_to_dicts c := guarded (_cursor_to_dicts c);
  next it := guarded (next it);
|}.

End flaky.
Arguments flaky C : clear implicits.

(** ** A connection that keeps a log *)

Section recorder.
Context {value C : Type} `{!ConnectionBase value C}.

(** A connection with a log in front of it: every statement handed to
    [execute] is written down, text and bound parameters, before it is
    passed on. *)
Record recorder := Recorder {
  statements : list (string * dict value);
  wrapped : C;
}.

(** An operation passed on to the connection behind the log. *)
Definition passed {A} (m : M C A) : M recorder A :=
  λ r, match m (wrapped r) with
       | Returned a c => Returned a (Recorder (statements r) c)
       | Raised e c => Raised e (Recorder (statements r) c)
       end.

(** One more line in the log. *)
Definition logged (sql : string) (binds : dict value) : M recorder unit :=
  λ r, Returned () (Recorder (statements r ++ [(sql, binds)]) (wrapped r)).

#[global] Instance recorder_connection : ConnectionBase value recorder := {|
  cursor_t := cursor_t;
  iter_t := iter_t;
  _insert_dict table d := passed (_insert_dict table d);
  cursor := passed cursor;
  execute c sql binds := _ <- logged sql binds ;; passed (execute c sql binds);
  _cursor_to_dicts c := passed (_cursor_to_dicts c);
  next it := passed (next it);
|}.

(** The statements logged between two states of the connection. *)
Definition sent (before after : recorder) : list (string * dict value) :=
  drop (length (statements before)) (statements after).

End recorder.
Arguments recorder value C : clear implicits.

(** ** States the proofs name *)

Abbreviation store_world value := (world value (refstore value)).

(** The store after a row has been added to [builds]. *)
Definition with_build {value} (row : dict value) (s : refstore value)
  : refstore value :=
  RefStore (<["builds" := tables s !!! "builds" ++ [row]]> (tables s))
           (cursors s).

(** The store after a lookup of [b]: one more cursor, holding what the
    method did not take. *)
Definition after_lookup {value} `{!EqDecision value} (b : value)
    (s : refstore value) : refstore value :=
  RefStore (tables s)
           (<[fresh (dom (cursors s)) :=
                tail (matching b (rows_of "builds" s))]> (cursors s)).

(** ** Worlds to run the methods in *)

(** A caller with two parameter sets: one that names a builder and also has
    entries under [id] and [version_], and an empty one. *)
Definition extras : dict string :=
  {[ "builder" := "linux64-opt"; "id" := "shadow"; "version_" := "0.9" ]}.

Definition caller_heap : gmap ref (dict string) := {[ 0 := extras; 1 := ∅ ]}.

(** Two rows for the build [b1], of different versions. *)
Definition build_1 : dict string := {[ "id" := "b1"; "version_" := "1.0" ]}.

Definition build_1_again : dict string :=
  {[ "id" := "b1"; "version_" := "1.1" ]}.

(** Stores with no build, with one, and with two rows under one [id]. *)
Definition no_builds : refstore string := RefStore ∅ ∅.

Definition one_build : refstore string :=
  RefStore {[ "builds" := [build_1] ]} ∅.

Definition two_alike : refstore string :=
  RefStore {[ "builds" := [build_1; build_1_again] ]} ∅.

Definition at_store (s : refstore string) : store_world string :=
  World caller_heap s.

(** The world after [insert_build "b1" "1.0"] with the first parameter set
    on the empty store, and after [insert_build "b2" "2.0"] with the empty
    one on top of that. *)
Definition after_first_insert : store_world string :=
  World (<[2 := build_row "b1" "1.0" extras]> caller_heap)
        (with_build (build_row "b1" "1.0" extras) no_builds).

Definition after_second_insert : store_world string :=
  World (<[3 := build_row "b2" "2.0" ∅]> (heap after_first_insert))
        (with_build (build_row "b2" "2.0" ∅) (conn after_first_insert)).

(** The empty store behind a connection that is lost after [n] calls. *)
Definition dropping (n : nat) : world string (flaky (refstore string)) :=
  World caller_heap (Flaky n no_builds).

(** What is left of that connection when it is lost right after a cursor
    was made. *)
Definition lost_at_execute : flaky (refstore string) :=
  Flaky 0 (RefStore ∅ {[ 0 := [] ]}).

(** The store with one build behind a log with nothing in it yet. *)
Definition listening : world string (recorder string (refstore string)) :=
  World caller_heap (Recorder [] one_build).

(** A parameter set that names the builder and nothing else, and a caller
    that holds it. *)
Definition plain : dict string := {[ "builder" := "linux64-opt" ]}.

Definition plain_caller : store_world string :=
  World {[ 0 := plain ]} no_builds.

(** ** How the two methods run *)

Section running.
Context {value C : Type} `{!ConnectionBase value C}.

(** With [params] a dictionary, [insert_build] allocates the copy, fills in
    the two columns, and ends the way the connection's insert ends. *)
Lemma insert_build_run (b v : value) (params : ref) (w : world value C) p :
  heap w !! params = Some p →
  insert_build b v params w =
    let h := <[fresh (dom (heap w)) := build_row b v p]> (heap w) in
    match _insert_dict "builds" (build_row b v p) (conn w) with
    | Returned _ c => Returned () (World h c)
    | Raised e c => Raised e (World h c)
    end.
Proof.
  intros Hp. unfold insert_build, bind, py_dict. rewrite Hp. cbn.
  unfold py_setitem. cbn. rewrite lookup_insert_eq. cbn.
  rewrite lookup_insert_eq. cbn.
  unfold py_items. cbn. rewrite lookup_insert_eq.
  unfold call. cbn. rewrite !insert_insert_eq. fold (build_row b v p).
  by destruct (_insert_dict _ _ _).
Qed.

(** Without one, [dict(params)] raises before anything else happens. *)
Lemma insert_build_not_a_mapping (b v : value) (params : ref)
    (w : world value C) :
  heap w !! params = None →
  insert_build b v params w = Raised (TypeError "object is not a mapping") w.
Proof.
  intros Hp. unfold insert_build, bind, py_dict. rewrite Hp. reflexivity.
Qed.

(** An item assignment is seen through every reference to the dictionary
    assigned to. *)
Lemma py_setitem_writes (d : ref) (k : string) (x : value)
    (w : world value C) m :
  heap w !! d = Some m →
  heap (final (py_setitem d k x w)) !! d = Some (<[k := x]> m).
Proof.
  intros Hd. unfold py_setitem. rewrite Hd. cbn. apply lookup_insert_eq.
Qed.

(** [get_build] returns the first item of the iteration and leaves the
    connection where that one step left it. *)
Lemma get_build_first_item (b : value) (w : world value C) c c1 u c2 it c3
    row c4 :
  cursor (conn w) = Returned c c1 →
  execute c select_build {[ "id" := b ]} c1 = Returned u c2 →
  _cursor_to_dicts c c2 = Returned it c3 →
  next it c3 = Returned (Some row) c4 →
  get_build b w = Returned (Some row) (World (heap w) c4).
Proof.
  intros Hcur Hexe Hconv Hnext. unfold get_build, bind, call.
  rewrite Hcur. cbn. rewrite Hexe. cbn. rewrite Hconv. cbn.
  by rewrite Hnext.
Qed.

(** When the iteration has no item, [get_build] returns [None]. *)
Lemma get_build_no_item (b : value) (w : world value C) c c1 u c2 it c3 c4 :
  cursor (conn w) = Returned c c1 →
  execute c select_build {[ "id" := b ]} c1 = Returned u c2 →
  _cursor_to_dicts c c2 = Returned it c3 →
  next it c3 = Returned None c4 →
  get_build b w = Returned None (World (heap w) c4).
Proof.
  intros Hcur Hexe Hconv Hnext. unfold get_build, bind, call.
  rewrite Hcur. cbn. rewrite Hexe. cbn. rewrite Hconv. cbn.
  by rewrite Hnext.
Qed.

(** The copy is a new object: the caller's dictionaries keep their items. *)
Lemma fresh_copy_frame (h : gmap ref (dict value)) (r : ref) (m : dict value) :
  is_Some (h !! r) → <[fresh (dom h) := m]> h !! r = h !! r.
Proof.
  intros Hr. apply lookup_insert_ne. intros Heq. subst r.
  apply (is_fresh (dom h)). by apply elem_of_dom.
Qed.

End running.

(** ** The two methods over the reference store *)

Section on_store.
Context {value : Type} `{!EqDecision value}.
Implicit Types (b v : value) (p row : dict value) (s : refstore value).
Implicit Types (w : store_world value) (params : ref).

Lemma build_row_id b v p : build_row b v p !! "id" = Some b.
Proof.
  unfold build_row. rewrite lookup_insert_ne by done. apply lookup_insert_eq.
Qed.

Lemma build_row_version b v p : build_row b v p !! "version_" = Some v.
Proof. unfold build_row. apply lookup_insert_eq. Qed.

Lemma build_row_other b v p k :
  k ≠ "id" → k ≠ "version_" → build_row b v p !! k = p !! k.
Proof.
  intros Hid Hver. unfold build_row. by rewrite !lookup_insert_ne.
Qed.

(** The store's answer to the insert of a build row. *)
Lemma insert_dict_on_store b v p s :
  _insert_dict "builds" (build_row b v p) s =
    if bool_decide (Exists (has_id b) (rows_of "builds" s))
    then Raised (IntegrityError "builds.id is not unique") s
    else Returned () (with_build (build_row b v p) s).
Proof.
  cbn. unfold ref_insert_dict, duplicate_id. rewrite build_row_id.
  rewrite bool_decide_eq_true_2 by done. cbn.
  by destruct (bool_decide _).
Qed.

(** [insert_build] on a store that has no build of this [id] yet. *)
Lemma insert_build_accepted b v params w p :
  heap w !! params = Some p →
  ¬ Exists (has_id b) (rows_of "builds" (conn w)) →
  insert_build b v params w =
    Returned () (World (<[fresh (dom (heap w)) := build_row b v p]> (heap w))
                       (with_build (build_row b v p) (conn w))).
Proof.
  intros Hp Hnew. rewrite (insert_build_run _ _ _ _ _ Hp). cbv zeta.
  rewrite insert_dict_on_store. by rewrite bool_decide_eq_false_2.
Qed.

(** [insert_build] on a store that has one. *)
Lemma insert_build_refused b v params w p :
  heap w !! params = Some p →
  Exists (has_id b) (rows_of "builds" (conn w)) →
  insert_build b v params w =
    Raised (IntegrityError "builds.id is not unique")
           (World (<[fresh (dom (heap w)) := build_row b v p]> (heap w))
                  (conn w)).
Proof.
  intros Hp Hold. rewrite (insert_build_run _ _ _ _ _ Hp). cbv zeta.
  rewrite insert_dict_on_store. by rewrite bool_decide_eq_true_2.
Qed.

(** When [insert_build] returns, it was in the first of these cases. *)
Lemma insert_build_returned b v params w a w' :
  insert_build b v params w = Returned a w' →
  ∃ p, heap w !! params = Some p
       ∧ ¬ Exists (has_id b) (rows_of "builds" (conn w))
       ∧ w' = World (<[fresh (dom (heap w)) := build_row b v p]> (heap w))
                    (with_build (build_row b v p) (conn w)).
Proof.
  intros Hrun. destruct (heap w !! params) as [p|] eqn:Hp.
  - exists p. split; [done|].
    destruct (decide (Exists (has_id b) (rows_of "builds" (conn w))))
      as [Hold|Hnew].
    + rewrite (insert_build_refused _ _ _ _ _ Hp Hold) in Hrun. discriminate.
    + rewrite (insert_build_accepted _ _ _ _ _ Hp Hnew) in Hrun.
      split; [done|]. congruence.
  - rewrite insert_build_not_a_mapping in Hrun by done. discriminate.
Qed.

(** [get_build] over the store: it always returns, with the first of the
    rows of [builds] that have the [id], if any. *)
Lemma get_build_on_store b w :
  get_build b w =
    Returned (head (matching b (rows_of "builds" (conn w))))
             (World (heap w) (after_lookup b (conn w))).
Proof.
  unfold get_build, bind, call. cbn. unfold ref_execute. cbn.
  rewrite lookup_insert_eq, bool_decide_eq_true_2 by done.
  rewrite lookup_singleton_eq. cbn. unfold ref_next. cbn.
  rewrite lookup_insert_eq, insert_insert_eq.
  unfold after_lookup, matching, rows_of.
  destruct (filter _ _) as [|r rest]; cbn; [done|].
  by rewrite insert_insert_eq.
Qed.

End on_store.

(** ** Rows and tables *)

Section rows.
Context {value : Type} `{!EqDecision value}.
Implicit Types (b v : value) (p row : dict value) (s : refstore value).

Lemma rows_of_with_build row s :
  rows_of "builds" (with_build row s) = rows_of "builds" s ++ [row].
Proof. unfold rows_of, with_build. cbn. apply lookup_total_insert_eq. Qed.

Lemma rows_of_with_build_ne row s table :
  table ≠ "builds" → rows_of table (with_build row s) = rows_of table s.
Proof.
  intros Hne. unfold rows_of, with_build. cbn.
  by apply lookup_total_insert_ne.
Qed.

Lemma rows_of_after_lookup b s table :
  rows_of table (after_lookup b s) = rows_of table s.
Proof. reflexivity. Qed.

Lemma matching_none b (rows : list (dict value)) :
  ¬ Exists (has_id b) rows → matching b rows = [].
Proof.
  intros Hnone. unfold matching.
  induction rows as [|r rows IH]; [done|].
  rewrite filter_cons_False.
  - apply IH. intros Hex. apply Hnone. by right.
  - intros Hr. apply Hnone. by left.
Qed.

Lemma matching_app b (rows more : list (dict value)) :
  matching b (rows ++ more) = matching b rows ++ matching b more.
Proof. apply filter_app. Qed.

Lemma matching_one b row :
  matching b [row] = if decide (has_id b row) then [row] else [].
Proof. unfold matching. by rewrite filter_cons, filter_nil. Qed.

(** The first selected row is the first row of the table that has the
    [id]; the others selected come after it. *)
Lemma matching_first b (rows : list (dict value)) r rest :
  matching b rows = r :: rest →
  ∃ before after,
    rows = before ++ r :: after
    ∧ Forall (λ x, ¬ has_id b x) before
    ∧ has_id b r
    ∧ rest = matching b after.
Proof.
  unfold matching. induction rows as [|x rows IH]; [done|].
  rewrite filter_cons. destruct (decide (has_id b x)) as [Hx|Hx].
  - intros [= -> <-]. by exists [], rows.
  - intros Hsel. destruct (IH Hsel) as (before & after & -> & Hbefore & Hr & ->).
    exists (x :: before), after. split_and!; try done. by constructor.
Qed.

Lemma matching_some b (rows : list (dict value)) :
  Exists (has_id b) rows → ∃ r rest, matching b rows = r :: rest.
Proof.
  intros Hex. destruct (matching b rows) as [|r rest] eqn:Hsel; [|by eauto].
  exfalso. apply Exists_exists in Hex as (x & Hx & Hid).
  assert (x ∈ matching b rows) as Hin by by apply list_elem_of_filter.
  rewrite Hsel in Hin. by apply not_elem_of_nil in Hin.
Qed.

End rows.

(** ** The contract of [BuildConnection] *)

Section contract.
Context {value : Type} `{!EqDecision value}.
Implicit Types (b v : value) (p row : dict value) (s : refstore value).
Implicit Types (w : store_world value) (params : ref).

(** C2.  On a store whose [builds] table has no row with [id] equal to
    [build_id], [get_build] returns [None]: it does not raise, and it does
    not return a dictionary, empty or otherwise. *)
Theorem get_build_absent b w :
  ¬ Exists (has_id b) (rows_of "builds" (conn w)) →
  ∃ w', get_build b w = Returned None w'.
Proof.
  intros Hnone. rewrite get_build_on_store, (matching_none _ _ Hnone).
  by eexists.
Qed.

(** C4.  On a store where one or more rows of [builds] have the [id],
    [get_build] returns one record: the first such row in table order.  The
    rows selected after it stay on the cursor, unread. *)
Theorem get_build_first b w :
  Exists (has_id b) (rows_of "builds" (conn w)) →
  ∃ r before after w',
    get_build b w = Returned (Some r) w'
    ∧ rows_of "builds" (conn w) = before ++ r :: after
    ∧ Forall (λ x, ¬ has_id b x) before
    ∧ has_id b r
    ∧ cursors (conn w') !! fresh (dom (cursors (conn w)))
      = Some (matching b after).
Proof.
  intros Hex. destruct (matching_some _ _ Hex) as (r & rest & Hsel).
  destruct (matching_first _ _ _ _ Hsel)
    as (before & after & Hrows & Hbefore & Hr & ->).
  exists r, before, after, (World (heap w) (after_lookup b (conn w))).
  rewrite get_build_on_store. unfold after_lookup. rewrite Hsel. cbn.
  split_and!; try done. apply lookup_insert_eq.
Qed.

(** C10.  With an empty [params], [insert_build] still inserts a row, and
    the row has the two columns [id] and [version_], holding [build_id] and
    [version], and no other.  Whatever the connection, this is the row the
    method hands to its insert; over the store, on a table that does not
    have the [id] yet, it is the row added to [builds]. *)
Theorem insert_build_empty_params b v params :
  (∀ C (base : ConnectionBase value C) (w : world value C),
     heap w !! params = Some ∅ →
     ∃ row h,
       dom row = {[ "id"; "version_" ]}
       ∧ row !! "id" = Some b
       ∧ row !! "version_" = Some v
       ∧ insert_build b v params w
         = match _insert_dict "builds" row (conn w) with
           | Returned _ c => Returned () (World h c)
           | Raised e c => Raised e (World h c)
           end)
  ∧ (∀ w : store_world value,
       heap w !! params = Some ∅ →
       ¬ Exists (has_id b) (rows_of "builds" (conn w)) →
       ∃ w' row,
         insert_build b v params w = Returned () w'
         ∧ rows_of "builds" (conn w') = rows_of "builds" (conn w) ++ [row]
         ∧ dom row = {[ "id"; "version_" ]}
         ∧ row !! "id" = Some b
         ∧ row !! "version_" = Some v).
Proof.
  assert (dom (build_row b v ∅) = {[ "id"; "version_" ]}) as Hdom.
  { unfold build_row. rewrite !dom_insert_L, dom_empty_L. set_solver. }
  split.
  - intros C base w Hp. eexists (build_row b v ∅), _. split_and!.
    + exact Hdom.
    + apply build_row_id.
    + apply build_row_version.
    + by rewrite (insert_build_run _ _ _ _ _ Hp).
  - intros w Hp Hnew. eexists _, (build_row b v ∅).
    rewrite (insert_build_accepted _ _ _ _ _ Hp Hnew). cbn. split_and!.
    + done.
    + apply rows_of_with_build.
    + exact Hdom.
    + apply build_row_id.
    + apply build_row_version.
Qed.

End contract.

Section round_trip.
Context {value : Type} `{!EqDecision value}.
Implicit Types (b v : value) (p row : dict value) (s : refstore value).
Implicit Types (w : store_world value) (params : ref).

Lemma has_id_build_row b b' v p : has_id b (build_row b' v p) ↔ b = b'.
Proof. unfold has_id. rewrite build_row_id. naive_solver. Qed.

(** A lookup right after the insert of a new build finds that build. *)
Lemma matching_new_build b v p (rows : list (dict value)) :
  ¬ Exists (has_id b) rows →
  matching b (rows ++ [build_row b v p]) = [build_row b v p].
Proof.
  intros Hnew. rewrite matching_app, (matching_none _ _ Hnew), matching_one.
  rewrite decide_True; [done|]. by apply has_id_build_row.
Qed.

(** A lookup of another [id] does not see it. *)
Lemma matching_other_build b b' v p (rows : list (dict value)) :
  b ≠ b' →
  matching b (rows ++ [build_row b' v p]) = matching b rows.
Proof.
  intros Hne. rewrite matching_app, matching_one.
  rewrite decide_False; [apply app_nil_r|]. by rewrite has_id_build_row.
Qed.

(** C1, as amended.  On a store whose [builds] table has no row with [id]
    equal to [build_id], [insert_build] returns, and [get_build] on the
    store it leaves returns a record: its [id] is [build_id], its [version_]
    is [version], and it has every item of [params] whose key is neither
    [id] nor [version_]. *)
Theorem insert_then_get b v params w p :
  heap w !! params = Some p →
  ¬ Exists (has_id b) (rows_of "builds" (conn w)) →
  ∃ w1 row w2,
    insert_build b v params w = Returned () w1
    ∧ get_build b w1 = Returned (Some row) w2
    ∧ row !! "id" = Some b
    ∧ row !! "version_" = Some v
    ∧ ∀ k x, p !! k = Some x → k ≠ "id" → k ≠ "version_" → row !! k = Some x.
Proof.
  intros Hp Hnew. eexists _, (build_row b v p), _.
  rewrite (insert_build_accepted _ _ _ _ _ Hp Hnew). split; [done|].
  rewrite get_build_on_store. cbn [conn heap].
  rewrite rows_of_with_build, (matching_new_build _ _ _ _ Hnew).
  split; [done|]. split_and!.
  - apply build_row_id.
  - apply build_row_version.
  - intros k x Hk Hid Hver. by rewrite build_row_other.
Qed.

(** C5.  After the inserts of two builds with distinct identifiers, the
    lookup of each identifier returns the record made of that identifier,
    its version and its parameters, in whichever order the two lookups are
    made. *)
Theorem distinct_builds id1 id2 v1 v2 params1 params2 w p1 p2 w1 w2 :
  id1 ≠ id2 →
  heap w !! params1 = Some p1 →
  heap w !! params2 = Some p2 →
  insert_build id1 v1 params1 w = Returned () w1 →
  insert_build id2 v2 params2 w1 = Returned () w2 →
  ∃ w3 w4 w3' w4',
    get_build id1 w2 = Returned (Some (build_row id1 v1 p1)) w3
    ∧ get_build id2 w3 = Returned (Some (build_row id2 v2 p2)) w4
    ∧ get_build id2 w2 = Returned (Some (build_row id2 v2 p2)) w3'
    ∧ get_build id1 w3' = Returned (Some (build_row id1 v1 p1)) w4'.
Proof.
  intros Hne Hp1 Hp2 Hfst Hsnd.
  destruct (insert_build_returned _ _ _ _ _ _ Hfst) as (q1 & Hq1 & Hnew1 & ->).
  assert (q1 = p1) as -> by congruence.
  destruct (insert_build_returned _ _ _ _ _ _ Hsnd) as (q2 & Hq2 & Hnew2 & ->).
  cbn [conn heap] in *.
  rewrite fresh_copy_frame in Hq2 by (by rewrite Hp2).
  assert (q2 = p2) as -> by congruence.
  rewrite rows_of_with_build in Hnew2.
  set (s2 := with_build (build_row id2 v2 p2)
               (with_build (build_row id1 v1 p1) (conn w))).
  set (h2 := <[fresh _ := build_row id2 v2 p2]> _).
  assert (matching id1 (rows_of "builds" s2) = [build_row id1 v1 p1])
    as Hsel1.
  { unfold s2. rewrite !rows_of_with_build, matching_other_build by done.
    by apply matching_new_build. }
  assert (matching id2 (rows_of "builds" s2) = [build_row id2 v2 p2])
    as Hsel2.
  { unfold s2. rewrite !rows_of_with_build. by apply matching_new_build. }
  exists (World h2 (after_lookup id1 s2)),
         (World h2 (after_lookup id2 (after_lookup id1 s2))),
         (World h2 (after_lookup id2 s2)),
         (World h2 (after_lookup id1 (after_lookup id2 s2))).
  rewrite !get_build_on_store. cbn [conn heap].
  rewrite !rows_of_after_lookup, Hsel1, Hsel2. done.
Qed.

(** C7, as amended.  [get_build] returns and leaves every table, and every
    dictionary of the caller, as it was.  [insert_build] never changes or
    removes a row that was there; when no row of [builds] has the [id] it
    returns [None], with one row more at the end of [builds] and every other
    table as it was; and when it raises, every table is as it was. *)
Theorem store_frame b v params w :
  (∃ r w', get_build b w = Returned r w'
           ∧ tables (conn w') = tables (conn w)
           ∧ heap w' = heap w)
  ∧ (∀ table,
       rows_of table (conn w)
         `prefix_of` rows_of table (conn (final (insert_build b v params w))))
  ∧ (∀ p,
       heap w !! params = Some p →
       ¬ Exists (has_id b) (rows_of "builds" (conn w)) →
       ∃ w',
         insert_build b v params w = Returned () w'
         ∧ rows_of "builds" (conn w')
           = rows_of "builds" (conn w) ++ [build_row b v p]
         ∧ ∀ table, table ≠ "builds" →
                    rows_of table (conn w') = rows_of table (conn w))
  ∧ (∀ e w',
       insert_build b v params w = Raised e w' →
       tables (conn w') = tables (conn w)).
Proof.
  split_and!.
  - eexists _, _. rewrite get_build_on_store. done.
  - intros table. destruct (heap w !! params) as [p|] eqn:Hp.
    + destruct (decide (Exists (has_id b) (rows_of "builds" (conn w))))
        as [Hold|Hnew].
      * by rewrite (insert_build_refused _ _ _ _ _ Hp Hold).
      * rewrite (insert_build_accepted _ _ _ _ _ Hp Hnew). cbn.
        destruct (decide (table = "builds")) as [->|Hne].
        -- rewrite rows_of_with_build. by apply prefix_app_r.
        -- by rewrite rows_of_with_build_ne.
    + by rewrite insert_build_not_a_mapping.
  - intros p Hp Hnew. eexists.
    rewrite (insert_build_accepted _ _ _ _ _ Hp Hnew). cbn. split_and!.
    + done.
    + apply rows_of_with_build.
    + intros table Hne. by apply rows_of_with_build_ne.
  - intros e w' Hrun. destruct (heap w !! params) as [p|] eqn:Hp.
    + destruct (decide (Exists (has_id b) (rows_of "builds" (conn w))))
        as [Hold|Hnew].
      * rewrite (insert_build_refused _ _ _ _ _ Hp Hold) in Hrun.
        by injection Hrun as _ <-.
      * by rewrite (insert_build_accepted _ _ _ _ _ Hp Hnew) in Hrun.
    + rewrite insert_build_not_a_mapping in Hrun by done.
      by injection Hrun as _ <-.
Qed.

End round_trip.

Section statement.
Context {value C : Type} `{!ConnectionBase value C}.
Implicit Types (b : value) (w : world value (recorder value C)).

(** What [get_build] adds to the log: its statement if a cursor could be
    made, nothing otherwise. *)
Lemma get_build_log b w :
  statements (conn (final (get_build b w)))
  = statements (conn w)
    ++ match cursor (wrapped (conn w)) with
       | Returned _ _ => [(select_build, {[ "id" := b ]})]
       | Raised _ _ => []
       end.
Proof.
  unfold get_build, bind, call. cbn. unfold passed.
  destruct (cursor (wrapped (conn w))) as [c c1|e c1]; cbn;
    [|by rewrite app_nil_r].
  unfold bind, logged, passed. cbn.
  destruct (execute c _ _ c1) as [u c2|e c2]; cbn; [|done].
  destruct (_cursor_to_dicts c c2) as [it c3|e c3]; cbn; [|done].
  destruct (next it c3) as [[row|] c4|e c4]; cbn; done.
Qed.

Lemma get_build_sent b w :
  sent (conn w) (conn (final (get_build b w)))
  = match cursor (wrapped (conn w)) with
    | Returned _ _ => [(select_build, {[ "id" := b ]})]
    | Raised _ _ => []
    end.
Proof. unfold sent. by rewrite get_build_log, drop_app_length. Qed.

(** C8.  Whatever the connection, every statement [get_build] hands to
    [execute] is the text [SELECT * FROM builds WHERE id=:id] with
    [build_id] bound to [id] beside it; it is sent once when a cursor can be
    made; and the texts sent are the same for any two values of [build_id]. *)
Theorem get_build_statement b w :
  (∀ q, q ∈ sent (conn w) (conn (final (get_build b w))) →
        q = ("SELECT * FROM builds WHERE id=:id", {[ "id" := b ]}))
  ∧ (∀ c c1, cursor (wrapped (conn w)) = Returned c c1 →
             sent (conn w) (conn (final (get_build b w)))
             = [("SELECT * FROM builds WHERE id=:id", {[ "id" := b ]})])
  ∧ (∀ b', (sent (conn w) (conn (final (get_build b' w)))).*1
           = (sent (conn w) (conn (final (get_build b w)))).*1).
Proof.
  split_and!.
  - intros q. rewrite get_build_sent.
    destruct (cursor _); [|by intros ?%not_elem_of_nil].
    by intros ->%list_elem_of_singleton.
  - intros c c1 Hcur. by rewrite get_build_sent, Hcur.
  - intros b'. rewrite !get_build_sent. by destruct (cursor _).
Qed.

End statement.

(** ** Properties that hold over any connection *)

Section any_connection.
Context {value C : Type} `{!ConnectionBase value C}.
Implicit Types (b v : value) (p : dict value) (w : world value C).
Implicit Types (params : ref) (e : exn).

(** C3.  What [insert_build] persists is one row of [builds], handed to the
    connection's insert: the items of [params] with [id] set to [build_id]
    and [version_] set to [version].  These two columns hold the arguments
    whatever [params] had under those keys, every other column is as in
    [params], and the method ends as that insert ends. *)
Theorem insert_build_row b v params w p :
  heap w !! params = Some p →
  ∃ row h,
    row !! "id" = Some b
    ∧ row !! "version_" = Some v
    ∧ (∀ k, k ≠ "id" → k ≠ "version_" → row !! k = p !! k)
    ∧ insert_build b v params w
      = match _insert_dict "builds" row (conn w) with
        | Returned _ c => Returned () (World h c)
        | Raised e c => Raised e (World h c)
        end.
Proof.
  intros Hp. eexists (build_row b v p), _. split_and!.
  - apply build_row_id.
  - apply build_row_version.
  - apply build_row_other.
  - by rewrite (insert_build_run _ _ _ _ _ Hp).
Qed.

(** C9.  [insert_build] leaves the caller's [params] as it was: after the
    call, returned or raised, the dictionary has the items it had before,
    the ones under [id] and [version_] included. *)
Theorem insert_build_keeps_params b v params w :
  heap (final (insert_build b v params w)) !! params = heap w !! params.
Proof.
  destruct (heap w !! params) as [p|] eqn:Hp.
  - rewrite (insert_build_run _ _ _ _ _ Hp). cbv zeta.
    destruct (_insert_dict _ _ _); cbn;
      (rewrite fresh_copy_frame; [done|by rewrite Hp]).
  - rewrite insert_build_not_a_mapping by done. done.
Qed.

(** C6.  An exception raised by the connection reaches the caller as it is.
    If the insert raises [e], so does [insert_build]; if the cursor
    factory, [execute], the conversion to dictionaries or its iteration
    raises [e], so does [get_build].  In each case the connection is left
    in the state in which the failing operation left it: nothing is tried
    again and no result is put in place of the exception. *)
Theorem errors_propagate e :
  (∀ b v params w p c',
     heap w !! params = Some p →
     _insert_dict "builds" (build_row b v p) (conn w) = Raised e c' →
     ∃ h', insert_build b v params w = Raised e (World h' c'))
  ∧ (∀ b w c',
       cursor (conn w) = Raised e c' →
       get_build b w = Raised e (World (heap w) c'))
  ∧ (∀ b w c c1 c',
       cursor (conn w) = Returned c c1 →
       execute c select_build {[ "id" := b ]} c1 = Raised e c' →
       get_build b w = Raised e (World (heap w) c'))
  ∧ (∀ b w c c1 u c2 c',
       cursor (conn w) = Returned c c1 →
       execute c select_build {[ "id" := b ]} c1 = Returned u c2 →
       _cursor_to_dicts c c2 = Raised e c' →
       get_build b w = Raised e (World (heap w) c'))
  ∧ (∀ b w c c1 u c2 it c3 c',
       cursor (conn w) = Returned c c1 →
       execute c select_build {[ "id" := b ]} c1 = Returned u c2 →
       _cursor_to_dicts c c2 = Returned it c3 →
       next it c3 = Raised e c' →
       get_build b w = Raised e (World (heap w) c')).
Proof.
  split_and!.
  - intros b v params w p c' Hp Hins.
    rewrite (insert_build_run _ _ _ _ _ Hp). cbv zeta. rewrite Hins.
    by eexists.
  - intros b w c' Hcur. unfold get_build, bind, call. by rewrite Hcur.
  - intros b w c c1 c' Hcur Hexe. unfold get_build, bind, call.
    rewrite Hcur. cbn. by rewrite Hexe.
  - intros b w c c1 u c2 c' Hcur Hexe Hconv. unfold get_build, bind, call.
    rewrite Hcur. cbn. rewrite Hexe. cbn. by rewrite Hconv.
  - intros b w c c1 u c2 it c3 c' Hcur Hexe Hconv Hnext.
    unfold get_build, bind, call.
    rewrite Hcur. cbn. rewrite Hexe. cbn. rewrite Hconv. cbn.
    by rewrite Hnext.
Qed.

End any_connection.

(** ** The contract at work *)

(** Closed goals are settled by running the definitions. *)
Ltac run := vm_compute; reflexivity.
Ltac decided := apply (bool_decide_unpack _); vm_compute; exact I.

(** The store [one_build] has the build [b1] and no build [b2] or [b7];
    [two_alike] has [b1] twice. *)
Lemma one_build_has_b1 :
  Exists (has_id "b1") (rows_of "builds" (conn (at_store one_build))).
Proof. decided. Defined.

Lemma one_build_lacks_b2 :
  ¬ Exists (has_id "b2") (rows_of "builds" (conn (at_store one_build))).
Proof. decided. Defined.

Lemma one_build_lacks_b7 :
  ¬ Exists (has_id "b7") (rows_of "builds" (conn (at_store one_build))).
Proof. decided. Defined.

Lemma two_alike_has_b1 :
  Exists (has_id "b1") (rows_of "builds" (conn (at_store two_alike))).
Proof. decided. Defined.

(** C1 fails as first stated: on a store that already has a build [b1],
    [insert_build] of [b1] with version [2.0] raises, and [get_build] on the
    store it leaves returns the old record, whose version is [1.0]. *)
Lemma insert_then_get_stale :
  raised (insert_build "b1" "2.0" 0 (at_store one_build))
    = Some (IntegrityError "builds.id is not unique")
  ∧ returned (get_build "b1"
                (final (insert_build "b1" "2.0" 0 (at_store one_build))))
    = Some (Some build_1)
  ∧ build_1 !! "version_" = Some "1.0"
  ∧ build_1 !! "version_" ≠ Some "2.0".
Proof.
  split_and!.
  - rewrite (insert_build_refused _ _ _ _ extras); [done|run|].
    apply one_build_has_b1.
  - rewrite get_build_on_store. run.
  - run.
  - discriminate.
Qed.

(** [insert_then_get] on a store that has [b1] only, for the build [b2]
    and the parameter set that has entries under [id] and [version_]. *)
Lemma insert_then_get_witness :
  heap (at_store one_build) !! 0 = Some extras
  ∧ ¬ Exists (has_id "b2") (rows_of "builds" (conn (at_store one_build)))
  ∧ ∃ w1 row w2,
      insert_build "b2" "2.0" 0 (at_store one_build) = Returned () w1
      ∧ get_build "b2" w1 = Returned (Some row) w2
      ∧ row !! "id" = Some "b2"
      ∧ row !! "version_" = Some "2.0"
      ∧ ∀ k x, extras !! k = Some x → k ≠ "id" → k ≠ "version_" →
               row !! k = Some x.
Proof.
  assert (heap (at_store one_build) !! 0 = Some extras) as Hp by run.
  split; [exact Hp|]. split; [exact one_build_lacks_b2|].
  exact (insert_then_get "b2" "2.0" 0 (at_store one_build) extras
           Hp one_build_lacks_b2).
Defined.

(** [get_build] of an identifier the store does not have. *)
Lemma get_build_absent_witness :
  ¬ Exists (has_id "b2") (rows_of "builds" (conn (at_store one_build)))
  ∧ ∃ w', get_build "b2" (at_store one_build) = Returned None w'.
Proof.
  split; [exact one_build_lacks_b2|].
  exact (get_build_absent "b2" (at_store one_build) one_build_lacks_b2).
Defined.

(** [insert_build_row] for the parameter set that has entries under [id]
    and [version_], on the empty store. *)
Lemma insert_build_row_witness :
  heap (at_store no_builds) !! 0 = Some extras
  ∧ ∃ row h,
      row !! "id" = Some "b1"
      ∧ row !! "version_" = Some "1.0"
      ∧ (∀ k, k ≠ "id" → k ≠ "version_" → row !! k = extras !! k)
      ∧ insert_build "b1" "1.0" 0 (at_store no_builds)
        = match _insert_dict "builds" row (conn (at_store no_builds)) with
          | Returned _ c => Returned () (World h c)
          | Raised e c => Raised e (World h c)
          end.
Proof.
  assert (heap (at_store no_builds) !! 0 = Some extras) as Hp by run.
  split; [exact Hp|].
  exact (insert_build_row "b1" "1.0" 0 (at_store no_builds) extras Hp).
Defined.

(** [get_build_first] on the store that has [b1] twice. *)
Lemma get_build_first_witness :
  Exists (has_id "b1") (rows_of "builds" (conn (at_store two_alike)))
  ∧ ∃ r before after w',
      get_build "b1" (at_store two_alike) = Returned (Some r) w'
      ∧ rows_of "builds" (conn (at_store two_alike)) = before ++ r :: after
      ∧ Forall (λ x, ¬ has_id "b1" x) before
      ∧ has_id "b1" r
      ∧ cursors (conn w') !! fresh (dom (cursors (conn (at_store two_alike))))
        = Some (matching "b1" after).
Proof.
  split; [exact two_alike_has_b1|].
  exact (get_build_first "b1" (at_store two_alike) two_alike_has_b1).
Defined.

(** [distinct_builds] for the builds [b1] and [b2] on the empty store. *)
Lemma distinct_builds_witness :
  "b1" ≠ "b2"
  ∧ heap (at_store no_builds) !! 0 = Some extras
  ∧ heap (at_store no_builds) !! 1 = Some ∅
  ∧ insert_build "b1" "1.0" 0 (at_store no_builds)
    = Returned () after_first_insert
  ∧ insert_build "b2" "2.0" 1 after_first_insert
    = Returned () after_second_insert
  ∧ ∃ w3 w4 w3' w4',
      get_build "b1" after_second_insert
      = Returned (Some (build_row "b1" "1.0" extras)) w3
      ∧ get_build "b2" w3 = Returned (Some (build_row "b2" "2.0" ∅)) w4
      ∧ get_build "b2" after_second_insert
        = Returned (Some (build_row "b2" "2.0" ∅)) w3'
      ∧ get_build "b1" w3'
        = Returned (Some (build_row "b1" "1.0" extras)) w4'.
Proof.
  assert ("b1" ≠ "b2") as Hne by discriminate.
  assert (heap (at_store no_builds) !! 0 = Some extras) as Hp1 by run.
  assert (heap (at_store no_builds) !! 1 = Some (∅ : dict string))
    as Hp2 by run.
  assert (insert_build "b1" "1.0" 0 (at_store no_builds)
          = Returned () after_first_insert) as Hfst by run.
  assert (insert_build "b2" "2.0" 1 after_first_insert
          = Returned () after_second_insert) as Hsnd by run.
  split_and!; [exact Hne|exact Hp1|exact Hp2|exact Hfst|exact Hsnd|].
  exact (distinct_builds "b1" "b2" "1.0" "2.0" 0 1 (at_store no_builds)
           extras ∅ after_first_insert after_second_insert
           Hne Hp1 Hp2 Hfst Hsnd).
Defined.

(** C7 fails as first stated: on a store that already has a build [b1],
    [insert_build] of [b1] raises and [builds] has the one row it had. *)
Lemma insert_build_refusal_adds_nothing :
  raised (insert_build "b1" "2.0" 0 (at_store one_build))
    = Some (IntegrityError "builds.id is not unique")
  ∧ returned (insert_build "b1" "2.0" 0 (at_store one_build)) = None
  ∧ rows_of "builds" (conn (final (insert_build "b1" "2.0" 0
                                      (at_store one_build))))
    = [build_1]
  ∧ rows_of "builds" (conn (at_store one_build)) = [build_1].
Proof.
  rewrite (insert_build_refused _ _ _ _ extras);
    [|run|apply one_build_has_b1].
  split_and!; run.
Qed.

(** [store_frame] on the store that has [b1] only, for the build [b2]. *)
Lemma store_frame_witness :
  heap (at_store one_build) !! 0 = Some extras
  ∧ ¬ Exists (has_id "b2") (rows_of "builds" (conn (at_store one_build)))
  ∧ ∃ w',
      insert_build "b2" "2.0" 0 (at_store one_build) = Returned () w'
      ∧ rows_of "builds" (conn w')
        = rows_of "builds" (conn (at_store one_build))
          ++ [build_row "b2" "2.0" extras]
      ∧ ∀ table, table ≠ "builds" →
                 rows_of table (conn w')
                 = rows_of table (conn (at_store one_build)).
Proof.
  assert (heap (at_store one_build) !! 0 = Some extras) as Hp by run.
  split; [exact Hp|]. split; [exact one_build_lacks_b2|].
  exact (proj1 (proj2 (proj2 (store_frame "b2" "2.0" 0 (at_store one_build))))
           extras Hp one_build_lacks_b2).
Defined.

(** [insert_build_empty_params] for the empty parameter set, on the store
    that has [b1] only. *)
Lemma insert_build_empty_params_witness :
  heap (at_store one_build) !! 1 = Some ∅
  ∧ ¬ Exists (has_id "b7") (rows_of "builds" (conn (at_store one_build)))
  ∧ (∃ row h,
       dom row = {[ "id"; "version_" ]}
       ∧ row !! "id" = Some "b7"
       ∧ row !! "version_" = Some "3.0"
       ∧ insert_build "b7" "3.0" 1 (at_store one_build)
         = match _insert_dict "builds" row (conn (at_store one_build)) with
           | Returned _ c => Returned () (World h c)
           | Raised e c => Raised e (World h c)
           end)
  ∧ ∃ w' row,
      insert_build "b7" "3.0" 1 (at_store one_build) = Returned () w'
      ∧ rows_of "builds" (conn w')
        = rows_of "builds" (conn (at_store one_build)) ++ [row]
      ∧ dom row = {[ "id"; "version_" ]}
      ∧ row !! "id" = Some "b7"
      ∧ row !! "version_" = Some "3.0".
Proof.
  assert (heap (at_store one_build) !! 1 = Some (∅ : dict string))
    as Hp by run.
  split; [exact Hp|]. split; [exact one_build_lacks_b7|]. split.
  - exact (proj1 (insert_build_empty_params "b7" "3.0" 1)
             _ _ (at_store one_build) Hp).
  - exact (proj2 (insert_build_empty_params "b7" "3.0" 1)
             (at_store one_build) Hp one_build_lacks_b7).
Defined.

(** [errors_propagate] at work: the store's refusal of a second [b1]
    reaches the caller of [insert_build], and the loss of the connection
    reaches the caller whichever operation meets it: the insert, the cursor
    factory, [execute], the conversion, or its iteration. *)
Lemma errors_propagate_witness :
  (∃ h', insert_build "b1" "2.0" 0 (at_store one_build)
         = Raised (IntegrityError "builds.id is not unique")
                  (World h' one_build))
  ∧ (∃ h', insert_build "b1" "1.0" 0 (dropping 0)
           = Raised (OperationalError "connection lost")
                    (World h' (Flaky 0 no_builds)))
  ∧ (∃ c', get_build "b1" (dropping 0)
           = Raised (OperationalError "connection lost")
                    (World caller_heap c'))
  ∧ (∃ c', get_build "b1" (dropping 1)
           = Raised (OperationalError "connection lost")
                    (World caller_heap c'))
  ∧ (∃ c', get_build "b1" (dropping 2)
           = Raised (OperationalError "connection lost")
                    (World caller_heap c'))
  ∧ (∃ c', get_build "b1" (dropping 3)
           = Raised (OperationalError "connection lost")
                    (World caller_heap c')).
Proof.
  pose proof (errors_propagate (value := string) (C := refstore string)
                (IntegrityError "builds.id is not unique")) as (Hdup & _).
  pose proof (errors_propagate (value := string)
                (C := flaky (refstore string))
                (OperationalError "connection lost"))
    as (Hins & Hcur & Hexe & Hconv & Hnext).
  split_and!.
  - apply (Hdup "b1" "2.0" 0 (at_store one_build) extras); run.
  - apply (Hins "b1" "1.0" 0 (dropping 0) extras); run.
  - eexists. apply (Hcur "b1" (dropping 0)). run.
  - eexists. eapply (Hexe "b1" (dropping 1)); run.
  - eexists. eapply (Hconv "b1" (dropping 2)); run.
  - eexists. eapply (Hnext "b1" (dropping 3)); run.
Defined.

(** [get_build_statement] in front of the store with one build. *)
Lemma get_build_statement_witness :
  cursor (wrapped (conn listening))
    = Returned 0 (RefStore {[ "builds" := [build_1] ]} {[ 0 := [] ]})
  ∧ sent (conn listening) (conn (final (get_build "b1" listening)))
    = [("SELECT * FROM builds WHERE id=:id", {[ "id" := "b1" ]})].
Proof.
  assert (cursor (wrapped (conn listening))
          = Returned 0 (RefStore {[ "builds" := [build_1] ]} {[ 0 := [] ]}))
    as Hcur by run.
  split; [exact Hcur|].
  exact (proj1 (proj2 (get_build_statement "b1" listening)) _ _ Hcur).
Defined.

(** ** More of what the two methods do, over any connection *)

Section more_of_insert_build.
Context {value C : Type} `{!ConnectionBase value C}.
Implicit Types (b v : value) (p : dict value) (w : world value C).
Implicit Types (params : ref) (e : exn).

(** Two parameter sets that differ under [id] and [version_] only give the
    same row. *)
Lemma build_row_agree b v p p' :
  (∀ k, k ≠ "id" → k ≠ "version_" → p !! k = p' !! k) →
  build_row b v p = build_row b v p'.
Proof.
  intros Hagree. apply map_eq. intros k.
  destruct (decide (k = "version_")) as [->|Hver].
  { by rewrite !build_row_version. }
  destruct (decide (k = "id")) as [->|Hid].
  { by rewrite !build_row_id. }
  rewrite !build_row_other by done. by apply Hagree.
Qed.

(** X1.  What [params] holds under [id] and [version_] has no influence on
    [insert_build]: with two parameter sets that agree on every other key,
    the method ends the same way and leaves the connection in the same
    state. *)
Theorem insert_build_ignores_overridden b v params params' w w' p p' :
  conn w = conn w' →
  heap w !! params = Some p →
  heap w' !! params' = Some p' →
  (∀ k, k ≠ "id" → k ≠ "version_" → p !! k = p' !! k) →
  returned (insert_build b v params w) = returned (insert_build b v params' w')
  ∧ raised (insert_build b v params w) = raised (insert_build b v params' w')
  ∧ conn (final (insert_build b v params w))
    = conn (final (insert_build b v params' w')).
Proof.
  intros Hconn Hp Hp' Hagree.
  rewrite (insert_build_run _ _ _ _ _ Hp), (insert_build_run _ _ _ _ _ Hp').
  cbv zeta. rewrite (build_row_agree b v p p' Hagree), Hconn.
  by destruct (_insert_dict _ _ _).
Qed.


(** X3.  The same [params] can be passed again: a second [insert_build]
    builds its row from the items [params] had before the first, whichever
    way the first ended, and nothing of the first call's [id] or [version_]
    is in it. *)
Theorem insert_build_again b v b' v' params w p :
  heap w !! params = Some p →
  ∃ row h,
    row !! "id" = Some b'
    ∧ row !! "version_" = Some v'
    ∧ (∀ k, k ≠ "id" → k ≠ "version_" → row !! k = p !! k)
    ∧ insert_build b' v' params (final (insert_build b v params w))
      = match _insert_dict "builds" row
                (conn (final (insert_build b v params w))) with
        | Returned _ c => Returned () (World h c)
        | Raised e c => Raised e (World h c)
        end.
Proof.
  intros Hp.
  assert (heap (final (insert_build b v params w)) !! params = Some p)
    as Hp1.
  { rewrite (insert_build_run _ _ _ _ _ Hp). cbv zeta.
    destruct (_insert_dict _ _ _); cbn;
      (rewrite fresh_copy_frame; [done|by rewrite Hp]). }
  eexists (build_row b' v' p), _. split_and!.
  - apply build_row_id.
  - apply build_row_version.
  - apply build_row_other.
  - by rewrite (insert_build_run _ _ _ _ _ Hp1).
Qed.

End more_of_insert_build.

Section more_of_get_build.
Context {value C : Type} `{!ConnectionBase value C}.
Implicit Types (b : value) (w : world value C) (e : exn).

(** X4.  [get_build] raises nothing of its own: an exception that leaves it
    was raised by the cursor factory, by [execute], by the conversion or by
    the first step of the iteration, each reached after the ones before it
    returned; and the caller's dictionaries are as they were. *)
Theorem get_build_raised b w e w' :
  get_build b w = Raised e w' →
  heap w' = heap w
  ∧ (cursor (conn w) = Raised e (conn w')
     ∨ (∃ c c1,
          cursor (conn w) = Returned c c1
          ∧ execute c select_build {[ "id" := b ]} c1 = Raised e (conn w'))
     ∨ (∃ c c1 u c2,
          cursor (conn w) = Returned c c1
          ∧ execute c select_build {[ "id" := b ]} c1 = Returned u c2
          ∧ _cursor_to_dicts c c2 = Raised e (conn w'))
     ∨ (∃ c c1 u c2 it c3,
          cursor (conn w) = Returned c c1
          ∧ execute c select_build {[ "id" := b ]} c1 = Returned u c2
          ∧ _cursor_to_dicts c c2 = Returned it c3
          ∧ next it c3 = Raised e (conn w'))).
Proof.
  unfold get_build, bind, call.
  destruct (cursor (conn w)) as [c c1|e1 c1] eqn:Hcur; cbn.
  2: { intros [= <- <-]. cbn. split; [done|]. by left. }
  destruct (execute c _ _ c1) as [u c2|e2 c2] eqn:Hexe; cbn.
  2: { intros [= <- <-]. cbn. split; [done|]. right. left. by eauto. }
  destruct (_cursor_to_dicts c c2) as [it c3|e3 c3] eqn:Hconv; cbn.
  2: { intros [= <- <-]. cbn. split; [done|]. right. right. left.
       by eauto 10. }
  destruct (next it c3) as [[row|] c4|e4 c4] eqn:Hnext; cbn; try done.
  intros [= <- <-]. cbn. split; [done|]. right. right. right. by eauto 10.
Qed.

(** X5.  [get_build] returns nothing of its own either: what it returns, a
    row or [None], is what the first step of the iteration gave, after the
    cursor factory, [execute] and the conversion returned; the connection is
    where that one step left it. *)
Theorem get_build_returned b w item w' :
  get_build b w = Returned item w' →
  heap w' = heap w
  ∧ ∃ c c1 u c2 it c3,
      cursor (conn w) = Returned c c1
      ∧ execute c select_build {[ "id" := b ]} c1 = Returned u c2
      ∧ _cursor_to_dicts c c2 = Returned it c3
      ∧ next it c3 = Returned item (conn w').
Proof.
  unfold get_build, bind, call.
  destruct (cursor (conn w)) as [c c1|e1 c1] eqn:Hcur; cbn; [|done].
  destruct (execute c _ _ c1) as [u c2|e2 c2] eqn:Hexe; cbn; [|done].
  destruct (_cursor_to_dicts c c2) as [it c3|e3 c3] eqn:Hconv; cbn; [|done].
  destruct (next it c3) as [[row|] c4|e4 c4] eqn:Hnext; cbn; [| |done];
    intros [= <- <-]; cbn; (split; [done|]); by eauto 10.
Qed.

End more_of_get_build.

(** ** Counting the calls into the connection *)

Section calls.
Context {value C : Type} `{!ConnectionBase value C}.
Implicit Types (b v : value) (p : dict value).
Implicit Types (w : world value (flaky C)) (params : ref).

Lemma guarded_calls {A} (m : M C A) (f : flaky C) :
  calls_left (final (guarded m f)) = pred (calls_left f).
Proof.
  unfold guarded. destruct f as [[|n] c]; cbn; [done|].
  by destruct (m c).
Qed.

(** X6.  [insert_build] makes one call into the connection, whichever way
    that call ends: of the calls a connection has left, one is used. *)
Theorem insert_build_one_call b v params w p :
  heap w !! params = Some p →
  calls_left (conn (final (insert_build b v params w)))
  = pred (calls_left (conn w)).
Proof.
  intros Hp. rewrite (insert_build_run _ _ _ _ _ Hp). cbv zeta. cbn.
  rewrite <- (guarded_calls (_insert_dict "builds" (build_row b v p))).
  by destruct (guarded _ _).
Qed.

(** X7.  [get_build] makes at most four calls into the connection, and
    four when it returns: the cursor, the statement, the conversion and one
    step of the iteration.  No second row is asked for. *)
Theorem get_build_four_calls b w :
  calls_left (conn w) ≤ calls_left (conn (final (get_build b w))) + 4
  ∧ ∀ item w',
      get_build b w = Returned item w' →
      calls_left (conn w) = calls_left (conn w') + 4.
Proof.
  unfold get_build, bind, call. cbn.
  pose proof (guarded_calls cursor (conn w)) as H1.
  destruct (guarded cursor (conn w)) as [c f1|e1 f1]; cbn in *;
    [|split; [lia|done]].
  pose proof (guarded_calls (execute c select_build {[ "id" := b ]}) f1)
    as H2.
  destruct (guarded (execute c _ _) f1) as [u f2|e2 f2]; cbn in *;
    [|split; [lia|done]].
  pose proof (guarded_calls (_cursor_to_dicts c) f2) as H3.
  destruct (guarded (_cursor_to_dicts c) f2) as [it f3|e3 f3]; cbn in *;
    [|split; [lia|done]].
  pose proof (guarded_calls (next it) f3) as H4.
  destruct (guarded (next it) f3) as [[row|] f4|e4 f4] eqn:Hnext; cbn in *;
    [| |split; [lia|done]].
  all: split; [lia|]; intros item w' [= <- <-]; cbn.
  all: destruct (calls_left f3) as [|n3] eqn:E3;
    [unfold guarded in Hnext; by rewrite E3 in Hnext|].
  all: destruct (calls_left f2) as [|n2] eqn:E2; [cbn in H3; lia|].
  all: destruct (calls_left f1) as [|n1] eqn:E1; [cbn in H2; lia|].
  all: destruct (calls_left (conn w)) as [|n0] eqn:E0; [cbn in H1; lia|].
  all: cbn in *; lia.
Qed.

End calls.

Section statements_of_insert.
Context {value C : Type} `{!ConnectionBase value C}.
Implicit Types (b v : value) (w : world value (recorder value C)).

(** X8.  [insert_build] hands no statement to [execute]: whatever the
    connection and whichever way the method ends, the log of statements is
    as it was. *)
Theorem insert_build_sends_nothing b v (params : ref) w :
  sent (conn w) (conn (final (insert_build b v params w))) = [].
Proof.
  unfold sent. destruct (heap w !! params) as [p|] eqn:Hp.
  - rewrite (insert_build_run _ _ _ _ _ Hp). cbv zeta. cbn. unfold passed.
    destruct (_insert_dict _ _ _); cbn; by rewrite drop_all.
  - rewrite insert_build_not_a_mapping by done. cbn. by rewrite drop_all.
Qed.

End statements_of_insert.

(** ** The further properties at work *)

(** The two parameter sets [extras] and [plain] agree but for [id] and
    [version_]. *)
Lemma extras_plain_agree k :
  k ≠ "id" → k ≠ "version_" → extras !! k = plain !! k.
Proof.
  intros Hid Hver. unfold extras, plain.
  destruct (decide (k = "builder")) as [->|Hne]; [reflexivity|].
  by rewrite !lookup_insert_ne, !lookup_singleton_ne.
Defined.

(** [insert_build_ignores_overridden] for [extras] and [plain]. *)
Lemma insert_build_ignores_overridden_witness :
  conn (at_store no_builds) = conn plain_caller
  ∧ heap (at_store no_builds) !! 0 = Some extras
  ∧ heap plain_caller !! 0 = Some plain
  ∧ (∀ k, k ≠ "id" → k ≠ "version_" → extras !! k = plain !! k)
  ∧ returned (insert_build "b1" "1.0" 0 (at_store no_builds))
    = returned (insert_build "b1" "1.0" 0 plain_caller)
  ∧ raised (insert_build "b1" "1.0" 0 (at_store no_builds))
    = raised (insert_build "b1" "1.0" 0 plain_caller)
  ∧ conn (final (insert_build "b1" "1.0" 0 (at_store no_builds)))
    = conn (final (insert_build "b1" "1.0" 0 plain_caller)).
Proof.
  assert (conn (at_store no_builds) = conn plain_caller) as Hconn
    by reflexivity.
  assert (heap (at_store no_builds) !! 0 = Some extras) as Hp by run.
  assert (heap plain_caller !! 0 = Some plain) as Hp' by run.
  split; [exact Hconn|]. split; [exact Hp|]. split; [exact Hp'|].
  split; [exact extras_plain_agree|].
  exact (insert_build_ignores_overridden "b1" "1.0" 0 0
           (at_store no_builds) plain_caller extras plain
           Hconn Hp Hp' extras_plain_agree).
Defined.


(** [insert_build_again] for two inserts with the one parameter set. *)
Lemma insert_build_again_witness :
  heap (at_store no_builds) !! 0 = Some extras
  ∧ ∃ row h,
      row !! "id" = Some "b2"
      ∧ row !! "version_" = Some "2.0"
      ∧ (∀ k, k ≠ "id" → k ≠ "version_" → row !! k = extras !! k)
      ∧ insert_build "b2" "2.0" 0
          (final (insert_build "b1" "1.0" 0 (at_store no_builds)))
        = match _insert_dict "builds" row
                  (conn (final (insert_build "b1" "1.0" 0
                                  (at_store no_builds)))) with
          | Returned _ c => Returned () (World h c)
          | Raised e c => Raised e (World h c)
          end.
Proof.
  assert (heap (at_store no_builds) !! 0 = Some extras) as Hp by run.
  split; [exact Hp|].
  exact (insert_build_again "b1" "1.0" "b2" "2.0" 0 (at_store no_builds)
           extras Hp).
Defined.

(** The world [get_build] leaves when the connection is lost right after
    the cursor was made. *)
Lemma get_build_raised_witness :
  get_build "b1" (dropping 1)
    = Raised (OperationalError "connection lost")
             (World caller_heap lost_at_execute)
  ∧ heap (World caller_heap lost_at_execute)
    = heap (dropping 1)
  ∧ (cursor (conn (dropping 1))
     = Raised (OperationalError "connection lost")
              lost_at_execute
     ∨ (∃ c c1,
          cursor (conn (dropping 1)) = Returned c c1
          ∧ execute c select_build {[ "id" := "b1" ]} c1
            = Raised (OperationalError "connection lost")
                     lost_at_execute)
     ∨ (∃ c c1 u c2,
          cursor (conn (dropping 1)) = Returned c c1
          ∧ execute c select_build {[ "id" := "b1" ]} c1 = Returned u c2
          ∧ _cursor_to_dicts c c2
            = Raised (OperationalError "connection lost")
                     lost_at_execute)
     ∨ (∃ c c1 u c2 it c3,
          cursor (conn (dropping 1)) = Returned c c1
          ∧ execute c select_build {[ "id" := "b1" ]} c1 = Returned u c2
          ∧ _cursor_to_dicts c c2 = Returned it c3
          ∧ next it c3
            = Raised (OperationalError "connection lost")
                     lost_at_execute)).
Proof.
  assert (get_build "b1" (dropping 1)
          = Raised (OperationalError "connection lost")
                   (World caller_heap lost_at_execute))
    as Hrun by run.
  split; [exact Hrun|].
  exact (get_build_raised "b1" (dropping 1) _ _ Hrun).
Defined.

(** [get_build_returned] on the store with one build. *)
Lemma get_build_returned_witness :
  get_build "b1" (at_store one_build)
    = Returned (Some build_1)
               (World caller_heap (after_lookup "b1" one_build))
  ∧ heap (World caller_heap (after_lookup "b1" one_build))
    = heap (at_store one_build)
  ∧ ∃ c c1 u c2 it c3,
      cursor (conn (at_store one_build)) = Returned c c1
      ∧ execute c select_build {[ "id" := "b1" ]} c1 = Returned u c2
      ∧ _cursor_to_dicts c c2 = Returned it c3
      ∧ next it c3 = Returned (Some build_1) (after_lookup "b1" one_build).
Proof.
  assert (get_build "b1" (at_store one_build)
          = Returned (Some build_1)
                     (World caller_heap (after_lookup "b1" one_build)))
    as Hrun by run.
  split; [exact Hrun|].
  exact (get_build_returned "b1" (at_store one_build) _ _ Hrun).
Defined.

(** [insert_build_one_call] on a connection with three calls left. *)
Lemma insert_build_one_call_witness :
  heap (dropping 3) !! 0 = Some extras
  ∧ calls_left (conn (final (insert_build "b1" "1.0" 0 (dropping 3))))
    = pred (calls_left (conn (dropping 3))).
Proof.
  assert (heap (dropping 3) !! 0 = Some extras) as Hp by run.
  split; [exact Hp|].
  exact (insert_build_one_call "b1" "1.0" 0 (dropping 3) extras Hp).
Defined.

(** [get_build_four_calls] on a connection with five calls left. *)
Lemma get_build_four_calls_witness :
  get_build "b1" (dropping 5)
    = Returned None
        (World caller_heap (Flaky 1 (after_lookup "b1" no_builds)))
  ∧ calls_left (conn (dropping 5))
    = calls_left
        (conn (World caller_heap (Flaky 1 (after_lookup "b1" no_builds))))
      + 4.
Proof.
  assert (get_build "b1" (dropping 5)
          = Returned None
              (World caller_heap (Flaky 1 (after_lookup "b1" no_builds))))
    as Hrun by run.
  split; [exact Hrun|].
  exact (proj2 (get_build_four_calls "b1" (dropping 5)) _ _ Hrun).
Defined.
